(** * cmake/pthread_clock_compat.h

    The header is a list of preprocessor directives and four function
    prototypes.  It is embedded line by line; a small model of the C
    preprocessor and of declaration elaboration (scope of type names,
    language linkage, symbol resolution) gives the lines their meaning. *)

From Stdlib Require Import String List ZArith Bool Lia.
Import ListNotations.
Open Scope string_scope.
Open Scope list_scope.

(** ** Types and prototypes, as the header writes them *)

Inductive ctype : Type :=
| Tint                                   (* int *)
| Tnamed (name : string)                 (* a typedef name, e.g. clockid_t *)
| Tstruct (tag : string)                 (* struct tag *)
| Tconst (t : ctype)                     (* const t *)
| Tptr (restrict_q : bool) (t : ctype).  (* t *   or   t *__restrict *)

Record param : Type := { p_type : ctype; p_name : string }.

Record prototype : Type :=
  { ret_type : ctype; fun_name : string; params : list param }.

(** One constructor per kind of line a C header can hold.  The last three
    are the definitions a header may carry; this header has none of them. *)
Inductive line : Type :=
| Ifndef (m : string)
| Ifdef (m : string)
| Define (m : string)
| Endif
| Include (h : string)
| Extern_C_open                          (* extern "C" {  *)
| Close_brace                            (* }             *)
| Fun_decl (p : prototype)            (* prototype;    *)
| Fun_def (p : prototype)             (* prototype { body } *)
| Object_def (t : ctype) (name : string)
| Type_def (t : ctype).               (* typedef, struct, union or enum definition *)

(** ** The file *)

Definition CUDA_SAMPLES_PTHREAD_CLOCK_COMPAT_H_ : string :=
  "CUDA_SAMPLES_PTHREAD_CLOCK_COMPAT_H_".

Definition cplusplus : string := "__cplusplus".

Definition abstime : param :=
  {| p_type := Tptr true (Tconst (Tstruct "timespec")); p_name := "abstime" |}.

Definition clock_id : param :=
  {| p_type := Tnamed "clockid_t"; p_name := "clock_id" |}.

Definition pthread_cond_clockwait : prototype :=
  {| ret_type := Tint;
     fun_name := "pthread_cond_clockwait";
     params :=
       [ {| p_type := Tptr true (Tnamed "pthread_cond_t"); p_name := "cond" |};
         {| p_type := Tptr true (Tnamed "pthread_mutex_t"); p_name := "mutex" |};
         clock_id;
         abstime ] |}.

Definition pthread_mutex_clocklock : prototype :=
  {| ret_type := Tint;
     fun_name := "pthread_mutex_clocklock";
     params :=
       [ {| p_type := Tptr true (Tnamed "pthread_mutex_t"); p_name := "mutex" |};
         clock_id;
         abstime ] |}.

Definition pthread_rwlock_clockrdlock : prototype :=
  {| ret_type := Tint;
     fun_name := "pthread_rwlock_clockrdlock";
     params :=
       [ {| p_type := Tptr true (Tnamed "pthread_rwlock_t"); p_name := "rwlock" |};
         clock_id;
         abstime ] |}.

Definition pthread_rwlock_clockwrlock : prototype :=
  {| ret_type := Tint;
     fun_name := "pthread_rwlock_clockwrlock";
     params :=
       [ {| p_type := Tptr true (Tnamed "pthread_rwlock_t"); p_name := "rwlock" |};
         clock_id;
         abstime ] |}.

(** Lines 1 to 32 of the file, blank lines left out. *)
Definition pthread_clock_compat_h : list line :=
  [ Ifndef CUDA_SAMPLES_PTHREAD_CLOCK_COMPAT_H_;
    Define CUDA_SAMPLES_PTHREAD_CLOCK_COMPAT_H_;
    Include "pthread.h";
    Include "time.h";
    Ifdef cplusplus;
    Extern_C_open;
    Endif;
    Fun_decl pthread_cond_clockwait;
    Fun_decl pthread_mutex_clocklock;
    Fun_decl pthread_rwlock_clockrdlock;
    Fun_decl pthread_rwlock_clockwrlock;
    Ifdef cplusplus;
    Close_brace;
    Endif;
    Endif ].

(** The four prototypes, in the order of the file. *)
Definition the_prototypes : list prototype :=
  [pthread_cond_clockwait; pthread_mutex_clocklock;
   pthread_rwlock_clockrdlock; pthread_rwlock_clockwrlock].

(** ** Preprocessing

    The state holds the macros defined so far, one flag per open
    conditional group (is the group being kept?), and the lines that
    survived. *)

Record pp_state : Type :=
  { macros : list string; conds : list bool; emitted : list line }.

Definition mem (m : string) (ms : list string) : bool :=
  existsb (String.eqb m) ms.

Definition defined (m : string) (st : pp_state) : bool :=
  mem m (macros st).

Definition live (st : pp_state) : bool :=
  match conds st with
  | [] => true
  | b :: _ => b
  end.

Definition enter (b : bool) (st : pp_state) : pp_state :=
  {| macros := macros st; conds := b :: conds st; emitted := emitted st |}.

Definition emit (l : line) (st : pp_state) : pp_state :=
  {| macros := macros st; conds := conds st; emitted := emitted st ++ [l] |}.

Definition pp_line (l : line) (st : pp_state) : option pp_state :=
  match l with
  | Ifndef m => Some (enter (live st && negb (defined m st)) st)
  | Ifdef m => Some (enter (live st && defined m st) st)
  | Endif =>
      match conds st with
      | [] => None
      | _ :: cs =>
          Some {| macros := macros st; conds := cs; emitted := emitted st |}
      end
  | Define m =>
      Some (if live st
            then {| macros := m :: macros st;
                    conds := conds st;
                    emitted := emitted st |}
            else st)
  | _ => Some (if live st then emit l st else st)
  end.

Fixpoint preprocess (ls : list line) (st : pp_state) : option pp_state :=
  match ls with
  | [] => Some st
  | l :: rest =>
      match pp_line l st with
      | None => None
      | Some st' => preprocess rest st'
      end
  end.

(** The start of a translation unit with the given predefined macros. *)
Definition pp_start (predefined : list string) : pp_state :=
  {| macros := predefined; conds := []; emitted := [] |}.

(** A whole file: every conditional it opens is closed again. *)
Definition preprocess_unit (predefined : list string) (ls : list line)
  : option (list line) :=
  match preprocess ls (pp_start predefined) with
  | Some st => match conds st with [] => Some (emitted st) | _ => None end
  | None => None
  end.

(** The prototypes a list of lines holds. *)
Definition prototypes (ls : list line) : list prototype :=
  flat_map (fun l => match l with Fun_decl p => [p] | _ => [] end) ls.

(** What one pass over the header does to a state in which the header is
    read for the first time. *)
Definition first_pass (st : pp_state) : pp_state :=
  {| macros := CUDA_SAMPLES_PTHREAD_CLOCK_COMPAT_H_ :: macros st;
     conds := conds st;
     emitted :=
       emitted st ++
       [Include "pthread.h"; Include "time.h"] ++
       (if defined cplusplus st then [Extern_C_open] else []) ++
       map Fun_decl the_prototypes ++
       (if defined cplusplus st then [Close_brace] else []) |}.

(** The definitions a list of lines holds, by kind. *)
Definition defines_function (l : line) : bool :=
  match l with Fun_def _ => true | _ => false end.

Definition defines_object (l : line) : bool :=
  match l with Object_def _ _ => true | _ => false end.

Definition defines_type (l : line) : bool :=
  match l with Type_def _ => true | _ => false end.

Definition defined_macros (ls : list line) : list string :=
  flat_map (fun l => match l with Define m => [m] | _ => [] end) ls.

Definition included_headers (ls : list line) : list string :=
  flat_map (fun l => match l with Include h => [h] | _ => [] end) ls.

(** The last two elements of a list (fewer when the list is shorter). *)
Definition last_two {A : Type} (l : list A) : list A :=
  skipn (length l - 2) l.

(** ** Type names *)

Fixpoint ctype_eqb (a b : ctype) : bool :=
  match a, b with
  | Tint, Tint => true
  | Tnamed x, Tnamed y => String.eqb x y
  | Tstruct x, Tstruct y => String.eqb x y
  | Tconst a', Tconst b' => ctype_eqb a' b'
  | Tptr r a', Tptr q b' => Bool.eqb r q && ctype_eqb a' b'
  | _, _ => false
  end.

(** The names a type mentions that must have been declared before use. *)
Fixpoint type_names (t : ctype) : list ctype :=
  match t with
  | Tint => []
  | Tnamed _ => [t]
  | Tstruct _ => [t]
  | Tconst t' => type_names t'
  | Tptr _ t' => type_names t'
  end.

Definition proto_type_names (p : prototype) : list ctype :=
  type_names (ret_type p) ++
  flat_map (fun q => type_names (p_type q)) (params p).

Definition is_pointer (t : ctype) : bool :=
  match t with Tptr _ _ => true | _ => false end.

Definition is_restrict_pointer (t : ctype) : bool :=
  match t with Tptr r _ => r | _ => false end.

(** ** The host platform

    Everything the header leaves to the platform: what its system headers
    declare, how its C++ ABI mangles names, and the thread library whose
    symbols the prototypes name.  A library function takes the argument
    values and the state of the world and gives a status and a new world. *)

Inductive value : Type :=
| Vptr (addr : Z)
| Vint (n : Z).

Record platform : Type :=
  { world : Type;
    provides : string -> list ctype;
    mangle : prototype -> string;
    exports : string -> option (list value -> world -> Z * world) }.

(** The type names POSIX puts in the two headers the file includes. *)
Definition posix_pthread_h : list ctype :=
  [Tnamed "pthread_cond_t"; Tnamed "pthread_mutex_t"; Tnamed "pthread_rwlock_t"].

Definition posix_time_h : list ctype :=
  [Tnamed "clockid_t"; Tstruct "timespec"].

Definition has_type (t : ctype) (ts : list ctype) : bool :=
  existsb (ctype_eqb t) ts.

Definition conforms (P : platform) : bool :=
  forallb (fun t => has_type t (provides P "pthread.h")) posix_pthread_h &&
  forallb (fun t => has_type t (provides P "time.h")) posix_time_h.

(** ** Elaboration of the preprocessed text *)

Inductive language : Type := Lang_C | Lang_Cxx.

Inductive linkage : Type := C_linkage | Cxx_linkage.

Record declaration : Type :=
  { d_proto : prototype; d_linkage : linkage; d_has_body : bool }.

Record scope : Type :=
  { types : list ctype;              (* type names declared so far *)
    extern_c : nat;                  (* open extern "C" blocks *)
    functions : list declaration;
    objects : list (ctype * string) }.

Definition empty_scope : scope :=
  {| types := []; extern_c := 0; functions := []; objects := [] |}.

Definition predefined (lang : language) : list string :=
  match lang with
  | Lang_C => []
  | Lang_Cxx => [cplusplus]
  end.

Definition linkage_here (lang : language) (sc : scope) : linkage :=
  match lang with
  | Lang_C => C_linkage
  | Lang_Cxx => match extern_c sc with O => Cxx_linkage | S _ => C_linkage end
  end.

Definition proto_in_scope (sc : scope) (p : prototype) : bool :=
  forallb (fun t => has_type t (types sc)) (proto_type_names p).

(** A function comes into scope when its type names are known.  Clashes
    with an earlier declaration of the same name are not modelled: the
    units considered start from the empty scope, and the header declares
    four distinct names. *)
Definition add_function (lang : language) (p : prototype) (body : bool)
           (sc : scope) : option scope :=
  if proto_in_scope sc p
  then Some {| types := types sc;
               extern_c := extern_c sc;
               functions :=
                 functions sc ++
                 [{| d_proto := p;
                     d_linkage := linkage_here lang sc;
                     d_has_body := body |}];
               objects := objects sc |}
  else None.

Section Elaboration.

Variable P : platform.

(** Of a system header only the type names it declares are kept; a
    directive that reaches this phase is an error. *)
Definition elab_line (lang : language) (l : line) (sc : scope)
  : option scope :=
  match l with
  | Include h =>
      Some {| types := types sc ++ provides P h;
              extern_c := extern_c sc;
              functions := functions sc;
              objects := objects sc |}
  | Extern_C_open =>
      match lang with
      | Lang_C => None
      | Lang_Cxx =>
          Some {| types := types sc;
                  extern_c := S (extern_c sc);
                  functions := functions sc;
                  objects := objects sc |}
      end
  | Close_brace =>
      match extern_c sc with
      | O => None
      | S n =>
          Some {| types := types sc;
                  extern_c := n;
                  functions := functions sc;
                  objects := objects sc |}
      end
  | Fun_decl p => add_function lang p false sc
  | Fun_def p => add_function lang p true sc
  | Object_def t name =>
      if forallb (fun u => has_type u (types sc)) (type_names t)
      then Some {| types := types sc;
                   extern_c := extern_c sc;
                   functions := functions sc;
                   objects := objects sc ++ [(t, name)] |}
      else None
  | Type_def t =>
      Some {| types := types sc ++ [t];
              extern_c := extern_c sc;
              functions := functions sc;
              objects := objects sc |}
  | Ifndef _ | Ifdef _ | Define _ | Endif => None
  end.

Fixpoint elaborate (lang : language) (ls : list line) (sc : scope)
  : option scope :=
  match ls with
  | [] => Some sc
  | l :: rest =>
      match elab_line lang l sc with
      | None => None
      | Some sc' => elaborate lang rest sc'
      end
  end.

(** A translation unit made of the given lines, compiled as [lang] with
    [extra] macros given on the command line. *)
Definition translate (lang : language) (extra : list string)
           (ls : list line) : option scope :=
  match preprocess_unit (predefined lang ++ extra) ls with
  | None => None
  | Some text =>
      match elaborate lang text empty_scope with
      | None => None
      | Some sc =>
          match extern_c sc with
          | O => Some sc
          | S _ => None
          end
      end
  end.

(** The name the linker sees. *)
Definition symbol (d : declaration) : string :=
  match d_linkage d with
  | C_linkage => fun_name (d_proto d)
  | Cxx_linkage => mangle P (d_proto d)
  end.

(** ** Calls *)

Definition arg_matches (q : param) (v : value) : bool :=
  match v with
  | Vptr _ => is_pointer (p_type q)
  | Vint _ => negb (is_pointer (p_type q))
  end.

Fixpoint args_match (ps : list param) (vs : list value) : bool :=
  match ps, vs with
  | [], [] => true
  | q :: ps', v :: vs' => arg_matches q v && args_match ps' vs'
  | _, _ => false
  end.

Inductive call_result : Type :=
| Rejected                               (* undeclared, or arguments do not fit *)
| Link_error                             (* no definition for the symbol *)
| Runs_in_unit (p : prototype)           (* a body of the unit itself runs *)
| Runs_in_platform (status : Z) (w : world P).

Definition find_function (f : string) (sc : scope) : option declaration :=
  find (fun d => String.eqb (fun_name (d_proto d)) f) (functions sc).

Definition call (sc : scope) (f : string) (args : list value)
           (w : world P) : call_result :=
  match find_function f sc with
  | None => Rejected
  | Some d =>
      if args_match (params (d_proto d)) args
      then if d_has_body d
           then Runs_in_unit (d_proto d)
           else match exports P (symbol d) with
                | None => Link_error
                | Some impl =>
                    let (status, w') := impl args w in
                    Runs_in_platform status w'
                end
      else Rejected
  end.

End Elaboration.

(** ** What the header amounts to *)

(** The scope a unit made of the header ends with, in C and in C++. *)
Definition header_scope (P : platform) : scope :=
  {| types := provides P "pthread.h" ++ provides P "time.h";
     extern_c := 0;
     functions :=
       map (fun p => {| d_proto := p; d_linkage := C_linkage; d_has_body := false |})
           the_prototypes;
     objects := [] |}.

(** A stand-in platform on which the statements can be run: its headers
    declare the POSIX names, its ABI mangles a name by putting _Z in front
    of it (enough to tell a mangled symbol from a plain one), and every call
    of its thread library times out, the world counting the calls. *)
Definition ETIMEDOUT : Z := 110.

Definition test_platform : platform :=
  {| world := nat;
     provides := fun h =>
       if String.eqb h "pthread.h" then posix_pthread_h
       else if String.eqb h "time.h" then posix_time_h
       else [];
     mangle := fun p => String.append "_Z" (fun_name p);
     exports := fun sym =>
       if mem sym (map fun_name the_prototypes)
       then Some (fun _ w => (ETIMEDOUT, S w))
       else None |}.

(** A platform whose headers declare the POSIX names but whose thread
    library predates the clock-aware functions and exports none of them. *)
Definition legacy_platform : platform :=
  {| world := nat;
     provides := provides test_platform;
     mangle := mangle test_platform;
     exports := fun _ => None |}.

(** ** Preprocessing lemmas *)

Lemma preprocess_app (xs ys : list line) (st : pp_state) :
  preprocess (xs ++ ys) st =
  match preprocess xs st with
  | Some st' => preprocess ys st'
  | None => None
  end.
Proof.
  revert st; induction xs as [|x xs IH]; intros st; simpl.
  - reflexivity.
  - destruct (pp_line x st) as [st'|]; [apply IH | reflexivity].
Qed.

Lemma cplusplus_is_not_the_guard :
  String.eqb cplusplus CUDA_SAMPLES_PTHREAD_CLOCK_COMPAT_H_ = false.
Proof. reflexivity. Qed.

Ltac pp_step :=
  unfold emit, enter, defined, mem;
  cbn [preprocess pp_line live conds macros emitted existsb andb negb orb].

Lemma header_skipped (st : pp_state) :
  live st && negb (defined CUDA_SAMPLES_PTHREAD_CLOCK_COMPAT_H_ st) = false ->
  preprocess pthread_clock_compat_h st = Some st.
Proof.
  intros H. destruct st as [ms cs out].
  unfold pthread_clock_compat_h.
  cbn [preprocess pp_line]. rewrite H. pp_step. reflexivity.
Qed.

Lemma header_read (st : pp_state) :
  live st = true ->
  defined CUDA_SAMPLES_PTHREAD_CLOCK_COMPAT_H_ st = false ->
  preprocess pthread_clock_compat_h st = Some (first_pass st).
Proof.
  intros Hl Hd. destruct st as [ms cs out].
  unfold pthread_clock_compat_h, first_pass.
  cbn [preprocess pp_line]. rewrite Hl, Hd. pp_step.
  destruct (existsb (String.eqb cplusplus) ms) eqn:Ecpp;
    repeat (rewrite ?cplusplus_is_not_the_guard, ?Ecpp; progress pp_step);
    repeat rewrite <- app_assoc; reflexivity.
Qed.

Lemma first_pass_guarded (st : pp_state) :
  defined CUDA_SAMPLES_PTHREAD_CLOCK_COMPAT_H_ (first_pass st) = true.
Proof.
  unfold defined, mem, first_pass. cbn [macros existsb].
  rewrite String.eqb_refl. reflexivity.
Qed.

(** One pass over the header, from any state. *)
Lemma header_once (st : pp_state) :
  preprocess pthread_clock_compat_h st =
  Some (if live st && negb (defined CUDA_SAMPLES_PTHREAD_CLOCK_COMPAT_H_ st)
        then first_pass st else st).
Proof.
  destruct (live st && negb (defined CUDA_SAMPLES_PTHREAD_CLOCK_COMPAT_H_ st))
    eqn:E.
  - apply andb_true_iff in E as [Hl Hd].
    apply negb_true_iff in Hd. now apply header_read.
  - now apply header_skipped.
Qed.

Lemma header_again (st : pp_state) :
  defined CUDA_SAMPLES_PTHREAD_CLOCK_COMPAT_H_ st = true ->
  preprocess pthread_clock_compat_h st = Some st.
Proof.
  intros H. apply header_skipped. rewrite H. apply andb_false_r.
Qed.

(** No line of the model removes a macro. *)
Lemma pp_line_keeps_macros (m : string) (l : line) (st st' : pp_state) :
  pp_line l st = Some st' -> defined m st = true -> defined m st' = true.
Proof.
  unfold defined, mem.
  destruct l; cbn [pp_line]; intros H Hm;
    try (injection H as <-; unfold enter, emit;
         destruct (live st); cbn [macros existsb]; rewrite ?Hm;
         auto using orb_true_r).
  destruct (conds st); [discriminate | injection H as <-; exact Hm].
Qed.

Lemma preprocess_keeps_macros (m : string) (ls : list line) :
  forall st st',
    preprocess ls st = Some st' -> defined m st = true -> defined m st' = true.
Proof.
  induction ls as [|l ls IH]; cbn [preprocess]; intros st st' H Hm.
  - injection H as <-. exact Hm.
  - destruct (pp_line l st) as [st1|] eqn:E; [|discriminate].
    eapply IH; [exact H|]. eapply pp_line_keeps_macros; eauto.
Qed.

(** X2: whatever lines stand between two inclusions of the header (the
    model has no #undef), the second inclusion changes nothing, provided
    the first one stood in live text. *)
Lemma reinclusion_is_void (between : list line) (st : pp_state) :
  live st = true ->
  preprocess (pthread_clock_compat_h ++ between ++ pthread_clock_compat_h) st =
  preprocess (pthread_clock_compat_h ++ between) st.
Proof.
  intros Hl. rewrite app_assoc, preprocess_app.
  destruct (preprocess (pthread_clock_compat_h ++ between) st) as [st2|] eqn:E;
    [|reflexivity].
  apply header_again.
  rewrite preprocess_app, header_once, Hl in E. cbn [andb] in E.
  eapply preprocess_keeps_macros; [exact E|].
  destruct (defined CUDA_SAMPLES_PTHREAD_CLOCK_COMPAT_H_ st) eqn:Hd;
    cbn [negb]; [exact Hd | apply first_pass_guarded].
Qed.

(** C9: from any preprocessor state, n > 0 inclusions of the header in a
    row leave the same state (macros, open conditionals and surviving
    lines, hence the same declarations) as a single inclusion: after the
    first pass the guard macro is defined and every further pass is
    skipped. *)
Theorem include_idempotent (n : nat) (st : pp_state) :
  0 < n ->
  preprocess (concat (repeat pthread_clock_compat_h n)) st =
  preprocess pthread_clock_compat_h st.
Proof.
  intros Hn. destruct n as [|k]; [lia|]. clear Hn.
  revert st. induction k as [|k IH]; intros st.
  - cbn [repeat concat]. now rewrite app_nil_r.
  - change (repeat pthread_clock_compat_h (S (S k)))
      with (pthread_clock_compat_h :: repeat pthread_clock_compat_h (S k)).
    cbn [concat]. rewrite preprocess_app, header_once.
    destruct (live st && negb (defined CUDA_SAMPLES_PTHREAD_CLOCK_COMPAT_H_ st))
      eqn:E.
    + rewrite IH. apply header_again, first_pass_guarded.
    + rewrite IH. now apply header_skipped.
Qed.

Lemma include_idempotent_witness :
  0 < 3 /\
  preprocess (concat (repeat pthread_clock_compat_h 3)) (pp_start []) =
  preprocess pthread_clock_compat_h (pp_start []).
Proof.
  split; [lia | apply (include_idempotent 3 (pp_start [])); lia].
Defined.

(** ** Elaboration lemmas *)

Lemma ctype_eqb_eq (a b : ctype) : ctype_eqb a b = true -> a = b.
Proof.
  revert b; induction a as [|x|x|a IH|r a IH]; intros [|y|y|b|q b];
    cbn [ctype_eqb]; intros H; try discriminate.
  - reflexivity.
  - apply String.eqb_eq in H. now subst.
  - apply String.eqb_eq in H. now subst.
  - f_equal. now apply IH.
  - apply andb_true_iff in H as [Hr Ha].
    apply Bool.eqb_prop in Hr. f_equal; [exact Hr | now apply IH].
Qed.

Lemma has_type_In (t : ctype) (ts : list ctype) :
  has_type t ts = true -> In t ts.
Proof.
  unfold has_type. intros H. apply existsb_exists in H as [u [Hu E]].
  apply ctype_eqb_eq in E. now subst.
Qed.

Lemma has_type_app (t : ctype) (xs ys : list ctype) :
  has_type t (xs ++ ys) = (has_type t xs || has_type t ys)%bool.
Proof. unfold has_type. apply existsb_app. Qed.

Lemma elaborate_app (P : platform) (lang : language) (xs ys : list line) :
  forall sc,
    elaborate P lang (xs ++ ys) sc =
    match elaborate P lang xs sc with
    | Some sc' => elaborate P lang ys sc'
    | None => None
    end.
Proof.
  induction xs as [|x xs IH]; intros sc; cbn [app elaborate].
  - reflexivity.
  - destruct (elab_line P lang x sc); [apply IH | reflexivity].
Qed.

(** A run of prototypes whose type names are all in scope is accepted, and
    each gets the linkage of the place where it stands. *)
Lemma elaborate_prototypes (P : platform) (lang : language)
      (ps : list prototype) :
  forall sc,
    forallb (proto_in_scope sc) ps = true ->
    elaborate P lang (map Fun_decl ps) sc =
    Some {| types := types sc;
            extern_c := extern_c sc;
            functions :=
              functions sc ++
              map (fun p => {| d_proto := p;
                               d_linkage := linkage_here lang sc;
                               d_has_body := false |}) ps;
            objects := objects sc |}.
Proof.
  induction ps as [|p ps IH]; intros sc H; cbn [map elaborate].
  - rewrite app_nil_r. now destruct sc.
  - cbn [forallb] in H. apply andb_true_iff in H as [Hp Hps].
    cbn [elab_line]. unfold add_function. rewrite Hp.
    rewrite IH by exact Hps.
    cbn [types extern_c functions objects]. unfold linkage_here.
    cbn [extern_c]. now rewrite <- app_assoc.
Qed.

(** On a conforming platform the two includes bring every type name of
    the four prototypes into scope. *)
Lemma prototypes_in_scope (P : platform) (sc : scope) :
  conforms P = true ->
  types sc = provides P "pthread.h" ++ provides P "time.h" ->
  forallb (proto_in_scope sc) the_prototypes = true.
Proof.
  unfold conforms. intros H Ht.
  apply andb_true_iff in H as [Hp Hc].
  cbn [forallb posix_pthread_h posix_time_h] in Hp, Hc.
  repeat (match goal with
          | H : (_ && _)%bool = true |- _ => apply andb_true_iff in H as [? ?]
          end).
  unfold the_prototypes, proto_in_scope. rewrite Ht.
  cbn [forallb proto_type_names type_names flat_map app
       pthread_cond_clockwait pthread_mutex_clocklock
       pthread_rwlock_clockrdlock pthread_rwlock_clockwrlock
       abstime clock_id ret_type params p_type].
  rewrite !has_type_app.
  repeat match goal with
         | H : has_type _ _ = true |- _ => rewrite H; clear H
         end.
  cbn [orb andb]. rewrite !orb_true_r. reflexivity.
Qed.

Lemma preprocess_header (ms : list string) :
  mem CUDA_SAMPLES_PTHREAD_CLOCK_COMPAT_H_ ms = false ->
  preprocess_unit ms pthread_clock_compat_h =
  Some ([Include "pthread.h"; Include "time.h"] ++
        (if mem cplusplus ms then [Extern_C_open] else []) ++
        map Fun_decl the_prototypes ++
        (if mem cplusplus ms then [Close_brace] else [])).
Proof.
  intros H. unfold preprocess_unit.
  rewrite header_read by (reflexivity || exact H).
  reflexivity.
Qed.

Lemma guard_not_predefined (lang : language) (extra : list string) :
  mem CUDA_SAMPLES_PTHREAD_CLOCK_COMPAT_H_ extra = false ->
  mem CUDA_SAMPLES_PTHREAD_CLOCK_COMPAT_H_ (predefined lang ++ extra) = false.
Proof.
  intros H. destruct lang; cbn [predefined app]; [exact H|].
  unfold mem in *. cbn [existsb]. rewrite H. reflexivity.
Qed.

Lemma cplusplus_predefined (lang : language) (extra : list string) :
  (lang = Lang_C -> mem cplusplus extra = false) ->
  mem cplusplus (predefined lang ++ extra) =
  match lang with Lang_C => false | Lang_Cxx => true end.
Proof.
  intros H. destruct lang; cbn [predefined app].
  - now apply H.
  - unfold mem. cbn [existsb]. now rewrite String.eqb_refl.
Qed.

(** A unit made of the header alone is accepted in both languages on a
    conforming platform, and ends in the same scope. *)
Lemma translate_header (P : platform) (lang : language) (extra : list string) :
  conforms P = true ->
  mem CUDA_SAMPLES_PTHREAD_CLOCK_COMPAT_H_ extra = false ->
  (lang = Lang_C -> mem cplusplus extra = false) ->
  translate P lang extra pthread_clock_compat_h = Some (header_scope P).
Proof.
  intros HP Hg Hc. unfold translate.
  rewrite preprocess_header by now apply guard_not_predefined.
  rewrite cplusplus_predefined by exact Hc.
  destruct lang.
  - cbn [app elaborate elab_line empty_scope types extern_c functions objects].
    rewrite app_nil_r.
    rewrite elaborate_prototypes by now apply (prototypes_in_scope P).
    reflexivity.
  - cbn [app elaborate elab_line empty_scope types extern_c functions objects].
    rewrite elaborate_app.
    rewrite elaborate_prototypes by now apply (prototypes_in_scope P).
    reflexivity.
Qed.

Lemma find_declared (P : platform) (p : prototype) :
  In p the_prototypes ->
  find_function (fun_name p) (header_scope P) =
  Some {| d_proto := p; d_linkage := C_linkage; d_has_body := false |}.
Proof.
  intros [<-|[<-|[<-|[<-|[]]]]]; reflexivity.
Qed.

Lemma conforms_provides (P : platform) :
  conforms P = true ->
  forall t, In t (posix_pthread_h ++ posix_time_h) ->
            In t (provides P "pthread.h" ++ provides P "time.h").
Proof.
  unfold conforms. intros H t Ht.
  apply andb_true_iff in H as [Hp Hc].
  rewrite forallb_forall in Hp, Hc.
  apply in_or_app. apply in_app_or in Ht as [Ht|Ht].
  - left. now apply has_type_In, Hp.
  - right. now apply has_type_In, Hc.
Qed.

(** ** Running the model *)

Example preprocessed_as_C :
  preprocess_unit (predefined Lang_C) pthread_clock_compat_h =
  Some ([Include "pthread.h"; Include "time.h"] ++ map Fun_decl the_prototypes).
Proof. reflexivity. Qed.

Example preprocessed_as_Cxx :
  preprocess_unit (predefined Lang_Cxx) pthread_clock_compat_h =
  Some ([Include "pthread.h"; Include "time.h"; Extern_C_open] ++
        map Fun_decl the_prototypes ++ [Close_brace]).
Proof. reflexivity. Qed.

Example guard_predefined_yields_nothing :
  preprocess_unit [CUDA_SAMPLES_PTHREAD_CLOCK_COMPAT_H_] pthread_clock_compat_h =
  Some [].
Proof. reflexivity. Qed.

Example unbalanced_endif_is_rejected :
  preprocess_unit [] (pthread_clock_compat_h ++ [Endif]) = None.
Proof. reflexivity. Qed.

(** Without the two includes the type names are unknown. *)
Example prototypes_alone_are_rejected :
  elaborate test_platform Lang_C (map Fun_decl the_prototypes) empty_scope = None.
Proof. reflexivity. Qed.

(** The wrapper is not C. *)
Example extern_C_is_rejected_in_C :
  elaborate test_platform Lang_C
    ([Include "pthread.h"; Include "time.h"; Extern_C_open] ++
     map Fun_decl the_prototypes ++ [Close_brace]) empty_scope = None.
Proof. reflexivity. Qed.

(** In C++ and outside the wrapper the prototypes would name mangled
    symbols, which the thread library does not export. *)
Example unwrapped_Cxx_does_not_link :
  match elaborate test_platform Lang_Cxx
          ([Include "pthread.h"; Include "time.h"] ++
           map Fun_decl the_prototypes) empty_scope with
  | Some sc =>
      map (symbol test_platform) (functions sc) =
      ["_Zpthread_cond_clockwait"; "_Zpthread_mutex_clocklock";
       "_Zpthread_rwlock_clockrdlock"; "_Zpthread_rwlock_clockwrlock"] /\
      call test_platform sc "pthread_mutex_clocklock"
           [Vptr 4096; Vint 1; Vptr 8192] 0%nat = Link_error test_platform
  | None => False
  end.
Proof. split; reflexivity. Qed.

(** A header that carried a body would answer the call itself. *)
Example a_body_would_intercept :
  match elaborate test_platform Lang_C
          [Include "pthread.h"; Include "time.h";
           Fun_def pthread_mutex_clocklock] empty_scope with
  | Some sc =>
      call test_platform sc "pthread_mutex_clocklock"
           [Vptr 4096; Vint 1; Vptr 8192] 0%nat =
      Runs_in_unit test_platform pthread_mutex_clocklock
  | None => False
  end.
Proof. reflexivity. Qed.

Example call_through_header :
  call test_platform (header_scope test_platform) "pthread_cond_clockwait"
       [Vptr 4096; Vptr 4160; Vint 1; Vptr 8192] 0%nat =
  Runs_in_platform test_platform ETIMEDOUT 1%nat.
Proof. reflexivity. Qed.

Example ill_typed_call_is_rejected :
  call test_platform (header_scope test_platform) "pthread_cond_clockwait"
       [Vptr 4096; Vint 1; Vptr 8192] 0%nat = Rejected test_platform.
Proof. reflexivity. Qed.

(** ** The claims *)

(** C1: the file holds exactly four prototypes, named
    pthread_cond_clockwait, pthread_mutex_clocklock,
    pthread_rwlock_clockrdlock and pthread_rwlock_clockwrlock; each returns
    int and ends its parameter list with a clockid_t followed by a pointer
    to const struct timespec; these four survive preprocessing in C and in
    C++; and no line of the file defines a function (so there is no body
    and no control flow), an object (no state) or a type. *)
Theorem header_is_four_prototypes :
  map fun_name (prototypes pthread_clock_compat_h) =
    ["pthread_cond_clockwait"; "pthread_mutex_clocklock";
     "pthread_rwlock_clockrdlock"; "pthread_rwlock_clockwrlock"] /\
  Forall (fun p =>
            ret_type p = Tint /\
            map p_type (last_two (params p)) =
              [Tnamed "clockid_t"; Tptr true (Tconst (Tstruct "timespec"))])
         (prototypes pthread_clock_compat_h) /\
  Forall (fun lang =>
            option_map prototypes
              (preprocess_unit (predefined lang) pthread_clock_compat_h) =
            Some (prototypes pthread_clock_compat_h))
         [Lang_C; Lang_Cxx] /\
  filter defines_function pthread_clock_compat_h = [] /\
  filter defines_object pthread_clock_compat_h = [] /\
  filter defines_type pthread_clock_compat_h = [].
Proof.
  split; [reflexivity|].
  split; [repeat constructor|].
  split; [repeat constructor|].
  repeat split.
Qed.

(** C6: on a platform whose headers declare the POSIX type names and whose
    thread library exports the function under its plain name, a call of
    one of the four functions from a unit that includes the header, in C
    or in C++, runs the library's function on the caller's arguments, and
    the caller receives exactly the status (and world) the library
    produced: the header puts no body in between, and the only macro it
    defines is its include guard. *)
Theorem status_is_the_library_s
        (P : platform) (lang : language) (extra : list string)
        (p : prototype) (impl : list value -> world P -> Z * world P)
        (args : list value) (w : world P) :
  conforms P = true ->
  mem CUDA_SAMPLES_PTHREAD_CLOCK_COMPAT_H_ extra = false ->
  (lang = Lang_C -> mem cplusplus extra = false) ->
  In p (prototypes pthread_clock_compat_h) ->
  exports P (fun_name p) = Some impl ->
  args_match (params p) args = true ->
  exists sc,
    translate P lang extra pthread_clock_compat_h = Some sc /\
    filter d_has_body (functions sc) = [] /\
    defined_macros pthread_clock_compat_h =
      [CUDA_SAMPLES_PTHREAD_CLOCK_COMPAT_H_] /\
    call P sc (fun_name p) args w =
    Runs_in_platform P (fst (impl args w)) (snd (impl args w)).
Proof.
  intros HP Hg Hc Hp He Ha.
  exists (header_scope P). split; [now apply translate_header|].
  split; [reflexivity|]. split; [reflexivity|].
  unfold call. rewrite (find_declared P p Hp).
  cbn [d_proto d_has_body]. rewrite Ha.
  unfold symbol. cbn [d_linkage d_proto]. rewrite He.
  now destruct (impl args w).
Qed.

Lemma status_is_the_library_s_witness :
  exists sc,
    translate test_platform Lang_C [] pthread_clock_compat_h = Some sc /\
    filter d_has_body (functions sc) = [] /\
    defined_macros pthread_clock_compat_h =
      [CUDA_SAMPLES_PTHREAD_CLOCK_COMPAT_H_] /\
    call test_platform sc (fun_name pthread_mutex_clocklock)
         [Vptr 4096; Vint 1; Vptr 8192] 7%nat =
    Runs_in_platform test_platform ETIMEDOUT 8%nat.
Proof.
  apply (status_is_the_library_s test_platform Lang_C []
           pthread_mutex_clocklock (fun _ w => (ETIMEDOUT, S w))
           [Vptr 4096; Vint 1; Vptr 8192] 7%nat).
  - reflexivity.
  - reflexivity.
  - intros _. reflexivity.
  - simpl. auto.
  - reflexivity.
  - reflexivity.
Defined.

(** C7: the type names the four prototypes mention are exactly
    pthread_cond_t, pthread_mutex_t, pthread_rwlock_t, clockid_t and struct
    timespec; the file includes pthread.h and time.h, and on a platform
    whose two headers declare the POSIX names each of the five is declared
    by a header the file includes; the file itself defines no type, no
    object and no function. *)
Theorem types_come_from_the_included_headers (P : platform) :
  conforms P = true ->
  included_headers pthread_clock_compat_h = ["pthread.h"; "time.h"] /\
  (forall t,
      In t (flat_map proto_type_names (prototypes pthread_clock_compat_h)) <->
      In t [Tnamed "pthread_cond_t"; Tnamed "pthread_mutex_t";
            Tnamed "pthread_rwlock_t"; Tnamed "clockid_t"; Tstruct "timespec"]) /\
  (forall t,
      In t (flat_map proto_type_names (prototypes pthread_clock_compat_h)) ->
      In t (flat_map (provides P) (included_headers pthread_clock_compat_h))) /\
  filter defines_type pthread_clock_compat_h = [] /\
  filter defines_object pthread_clock_compat_h = [] /\
  filter defines_function pthread_clock_compat_h = [].
Proof.
  intros HP.
  assert (Hset : forall t,
             In t (flat_map proto_type_names (prototypes pthread_clock_compat_h)) <->
             In t [Tnamed "pthread_cond_t"; Tnamed "pthread_mutex_t";
                   Tnamed "pthread_rwlock_t"; Tnamed "clockid_t";
                   Tstruct "timespec"]).
  { intros t. cbn. tauto. }
  split; [reflexivity|]. split; [exact Hset|].
  split; [|repeat split].
  intros t Ht. apply Hset in Ht.
  cbn [included_headers pthread_clock_compat_h flat_map app].
  rewrite app_nil_r. apply (conforms_provides P HP).
  cbn in Ht |- *. tauto.
Qed.

Lemma types_come_from_the_included_headers_witness :
  conforms test_platform = true /\
  included_headers pthread_clock_compat_h = ["pthread.h"; "time.h"] /\
  (forall t,
      In t (flat_map proto_type_names (prototypes pthread_clock_compat_h)) <->
      In t [Tnamed "pthread_cond_t"; Tnamed "pthread_mutex_t";
            Tnamed "pthread_rwlock_t"; Tnamed "clockid_t"; Tstruct "timespec"]) /\
  (forall t,
      In t (flat_map proto_type_names (prototypes pthread_clock_compat_h)) ->
      In t (flat_map (provides test_platform)
                     (included_headers pthread_clock_compat_h))) /\
  filter defines_type pthread_clock_compat_h = [] /\
  filter defines_object pthread_clock_compat_h = [] /\
  filter defines_function pthread_clock_compat_h = [].
Proof.
  split; [reflexivity|].
  apply (types_come_from_the_included_headers test_platform). reflexivity.
Defined.

(** C8: on a platform whose headers declare the POSIX type names, and
    with the guard not predefined.  Compiled as C++ (where __cplusplus is
    predefined) the preprocessed text is the two includes and the four
    prototypes between  extern "C" {  and  } ; the unit is accepted, every
    one of the four declarations has C linkage and its linker symbol is its
    plain, unmangled name.  Compiled as C (where __cplusplus is not
    defined) the wrapper is absent from the preprocessed text and the unit
    is accepted with the same four declarations. *)
Theorem wrapper_gives_C_linkage (P : platform) (extra : list string) :
  conforms P = true ->
  mem CUDA_SAMPLES_PTHREAD_CLOCK_COMPAT_H_ extra = false ->
  mem cplusplus extra = false ->
  (preprocess_unit (predefined Lang_Cxx ++ extra) pthread_clock_compat_h =
     Some ([Include "pthread.h"; Include "time.h"; Extern_C_open] ++
           map Fun_decl the_prototypes ++ [Close_brace]) /\
   exists sc,
     translate P Lang_Cxx extra pthread_clock_compat_h = Some sc /\
     map d_proto (functions sc) = the_prototypes /\
     Forall (fun d => d_linkage d = C_linkage /\
                      symbol P d = fun_name (d_proto d)) (functions sc)) /\
  (preprocess_unit (predefined Lang_C ++ extra) pthread_clock_compat_h =
     Some ([Include "pthread.h"; Include "time.h"] ++
           map Fun_decl the_prototypes) /\
   exists sc,
     translate P Lang_C extra pthread_clock_compat_h = Some sc /\
     map d_proto (functions sc) = the_prototypes /\
     Forall (fun d => symbol P d = fun_name (d_proto d)) (functions sc)).
Proof.
  intros HP Hg Hc. split; split.
  - rewrite preprocess_header by now apply guard_not_predefined.
    rewrite cplusplus_predefined by discriminate. reflexivity.
  - exists (header_scope P).
    split; [apply translate_header; auto; discriminate|].
    split; [reflexivity | repeat constructor].
  - rewrite preprocess_header by now apply guard_not_predefined.
    rewrite cplusplus_predefined by auto.
    cbn [app]. now rewrite app_nil_r.
  - exists (header_scope P).
    split; [apply translate_header; auto|].
    split; [reflexivity | repeat constructor].
Qed.

Lemma wrapper_gives_C_linkage_witness :
  (preprocess_unit (predefined Lang_Cxx ++ ["NDEBUG"]) pthread_clock_compat_h =
     Some ([Include "pthread.h"; Include "time.h"; Extern_C_open] ++
           map Fun_decl the_prototypes ++ [Close_brace]) /\
   exists sc,
     translate test_platform Lang_Cxx ["NDEBUG"] pthread_clock_compat_h = Some sc /\
     map d_proto (functions sc) = the_prototypes /\
     Forall (fun d => d_linkage d = C_linkage /\
                      symbol test_platform d = fun_name (d_proto d))
            (functions sc)) /\
  (preprocess_unit (predefined Lang_C ++ ["NDEBUG"]) pthread_clock_compat_h =
     Some ([Include "pthread.h"; Include "time.h"] ++
           map Fun_decl the_prototypes) /\
   exists sc,
     translate test_platform Lang_C ["NDEBUG"] pthread_clock_compat_h = Some sc /\
     map d_proto (functions sc) = the_prototypes /\
     Forall (fun d => symbol test_platform d = fun_name (d_proto d))
            (functions sc)).
Proof.
  apply (wrapper_gives_C_linkage test_platform ["NDEBUG"]); reflexivity.
Defined.

(** Each pointer parameter of the four prototypes is written with the
    restrict qualifier. *)
Lemma pointer_params_are_restrict :
  Forall (fun p =>
            forallb (fun q => implb (is_pointer (p_type q))
                                    (is_restrict_pointer (p_type q)))
                    (params p) = true)
         (prototypes pthread_clock_compat_h).
Proof. repeat constructor. Qed.

(** ** Further properties of the header *)

Lemma proto_in_scope_types (a b : scope) (p : prototype) :
  types a = types b -> proto_in_scope a p = proto_in_scope b p.
Proof. unfold proto_in_scope. now intros ->. Qed.

(** A run of prototypes is accepted only if every type name is in scope. *)
Lemma elaborate_prototypes_inv (P : platform) (lang : language)
      (ps : list prototype) :
  forall sc sc',
    elaborate P lang (map Fun_decl ps) sc = Some sc' ->
    forallb (proto_in_scope sc) ps = true.
Proof.
  induction ps as [|p ps IH]; intros sc sc' H; [reflexivity|].
  cbn [map elaborate elab_line] in H. unfold add_function in H.
  cbn [forallb]. destruct (proto_in_scope sc p); [|discriminate].
  cbn [andb]. apply IH in H.
  rewrite forallb_forall in H |- *. intros q Hq.
  rewrite <- (H q Hq). now apply proto_in_scope_types.
Qed.

(** The scope check of the four prototypes asks for the five names. *)
Lemma scope_check_is_five_names (sc : scope) :
  forallb (proto_in_scope sc) the_prototypes =
  forallb (fun t => has_type t (types sc)) (posix_pthread_h ++ posix_time_h).
Proof.
  unfold the_prototypes, proto_in_scope, posix_pthread_h, posix_time_h.
  cbn [forallb proto_type_names type_names flat_map app
       pthread_cond_clockwait pthread_mutex_clocklock
       pthread_rwlock_clockrdlock pthread_rwlock_clockwrlock
       abstime clock_id ret_type params p_type].
  destruct (has_type (Tnamed "pthread_cond_t") (types sc));
    destruct (has_type (Tnamed "pthread_mutex_t") (types sc));
    destruct (has_type (Tnamed "pthread_rwlock_t") (types sc));
    destruct (has_type (Tnamed "clockid_t") (types sc));
    destruct (has_type (Tstruct "timespec") (types sc)); reflexivity.
Qed.

(** The preprocessed header, elaborated from any scope. *)
Lemma elaborate_header_text (P : platform) (lang : language) (sc : scope) :
  elaborate P lang
    ([Include "pthread.h"; Include "time.h"] ++
     (match lang with Lang_C => [] | Lang_Cxx => [Extern_C_open] end) ++
     map Fun_decl the_prototypes ++
     (match lang with Lang_C => [] | Lang_Cxx => [Close_brace] end)) sc =
  if forallb (fun t => has_type t
                (types sc ++ provides P "pthread.h" ++ provides P "time.h"))
             (posix_pthread_h ++ posix_time_h)
  then Some {| types := types sc ++ provides P "pthread.h" ++ provides P "time.h";
               extern_c := extern_c sc;
               functions :=
                 functions sc ++
                 map (fun p => {| d_proto := p;
                                  d_linkage := C_linkage;
                                  d_has_body := false |}) the_prototypes;
               objects := objects sc |}
  else None.
Proof.
  set (ts := types sc ++ provides P "pthread.h" ++ provides P "time.h").
  assert (Hts : (types sc ++ provides P "pthread.h") ++ provides P "time.h" = ts)
    by (unfold ts; now rewrite app_assoc).
  destruct lang;
    cbn [app elaborate elab_line types extern_c functions objects];
    rewrite Hts.
  - rewrite app_nil_r.
    match goal with
    | |- elaborate _ _ _ ?s = _ =>
        pose proof (scope_check_is_five_names s) as Hs;
        cbn [types] in Hs; rewrite <- Hs; clear Hs;
        destruct (forallb (proto_in_scope s) the_prototypes) eqn:E
    end.
    + now rewrite elaborate_prototypes by exact E.
    + match goal with
      | |- ?e = None => destruct e as [sc'|] eqn:E'; [|reflexivity]
      end.
      apply elaborate_prototypes_inv in E'. congruence.
  - rewrite elaborate_app.
    match goal with
    | |- match elaborate _ _ _ ?s with _ => _ end = _ =>
        pose proof (scope_check_is_five_names s) as Hs;
        cbn [types] in Hs; rewrite <- Hs; clear Hs;
        destruct (forallb (proto_in_scope s) the_prototypes) eqn:E
    end.
    + now rewrite elaborate_prototypes by exact E.
    + match goal with
      | |- match ?e with _ => _ end = None =>
          destruct e as [sc'|] eqn:E'; [|reflexivity]
      end.
      apply elaborate_prototypes_inv in E'. congruence.
Qed.

Lemma preprocess_header_guarded (ms : list string) :
  mem CUDA_SAMPLES_PTHREAD_CLOCK_COMPAT_H_ ms = true ->
  preprocess_unit ms pthread_clock_compat_h = Some [].
Proof.
  intros H. unfold preprocess_unit. rewrite header_skipped; [reflexivity|].
  unfold defined, pp_start. cbn [macros live conds]. now rewrite H.
Qed.

Lemma guard_predefined (lang : language) (extra : list string) :
  mem CUDA_SAMPLES_PTHREAD_CLOCK_COMPAT_H_ extra = true ->
  mem CUDA_SAMPLES_PTHREAD_CLOCK_COMPAT_H_ (predefined lang ++ extra) = true.
Proof.
  intros H. unfold mem in *. rewrite existsb_app, H. apply orb_true_r.
Qed.

(** What the compiler makes of a unit that is the header alone: decided by
    the guard, by __cplusplus in a C compilation, and by the type names the
    two system headers declare. *)
Lemma translate_header_cases (P : platform) (lang : language)
      (extra : list string) :
  translate P lang extra pthread_clock_compat_h =
  if mem CUDA_SAMPLES_PTHREAD_CLOCK_COMPAT_H_ extra then Some empty_scope
  else if match lang with
          | Lang_C => mem cplusplus extra
          | Lang_Cxx => false
          end
       then None
       else if forallb
                 (fun t => has_type t
                    (provides P "pthread.h" ++ provides P "time.h"))
                 (posix_pthread_h ++ posix_time_h)
            then Some (header_scope P)
            else None.
Proof.
  unfold translate.
  destruct (mem CUDA_SAMPLES_PTHREAD_CLOCK_COMPAT_H_ extra) eqn:Hg.
  - rewrite preprocess_header_guarded by now apply guard_predefined.
    reflexivity.
  - rewrite preprocess_header by now apply guard_not_predefined.
    destruct lang.
    + cbn [predefined app].
      destruct (mem cplusplus extra) eqn:Hc; [reflexivity|].
      pose proof (elaborate_header_text P Lang_C empty_scope) as E.
      cbv iota in E |- *. cbn [app] in E |- *. rewrite E. clear E.
      cbn [empty_scope types extern_c functions objects app].
      destruct (forallb _ (posix_pthread_h ++ posix_time_h)); reflexivity.
    + rewrite cplusplus_predefined by discriminate.
      pose proof (elaborate_header_text P Lang_Cxx empty_scope) as E.
      cbv iota in E |- *. cbn [app] in E |- *. rewrite E. clear E.
      cbn [empty_scope types extern_c functions objects app].
      destruct (forallb _ (posix_pthread_h ++ posix_time_h)); reflexivity.
Qed.

Lemma conforms_five_names (P : platform) (pre : list ctype) :
  conforms P = true ->
  forallb (fun t => has_type t
             (pre ++ provides P "pthread.h" ++ provides P "time.h"))
          (posix_pthread_h ++ posix_time_h) = true.
Proof.
  unfold conforms. intros H. apply andb_true_iff in H as [Hp Hc].
  rewrite forallb_forall in Hp, Hc. apply forallb_forall. intros t Ht.
  rewrite !has_type_app. apply in_app_or in Ht as [Ht|Ht].
  - rewrite (Hp t Ht). now rewrite orb_true_r.
  - rewrite (Hc t Ht). now rewrite !orb_true_r.
Qed.


Lemma reinclusion_is_void_witness :
  live (pp_start []) = true /\
  preprocess (pthread_clock_compat_h ++
              [Ifdef "NDEBUG"; Define "QUIET"; Endif; Include "stdio.h"] ++
              pthread_clock_compat_h) (pp_start []) =
  preprocess (pthread_clock_compat_h ++
              [Ifdef "NDEBUG"; Define "QUIET"; Endif; Include "stdio.h"])
             (pp_start []).
Proof.
  split; [reflexivity|].
  apply (reinclusion_is_void
           [Ifdef "NDEBUG"; Define "QUIET"; Endif; Include "stdio.h"]
           (pp_start [])).
  reflexivity.
Defined.

(** X3: an inclusion that stands in a skipped conditional group does not
    use up the guard: after  #ifdef m  header  #endif  with m undefined, a
    later inclusion behaves as a first one. *)
Theorem skipped_inclusion_spares_the_guard (m : string) (st : pp_state) :
  defined m st = false ->
  preprocess (Ifdef m :: pthread_clock_compat_h ++
              Endif :: pthread_clock_compat_h) st =
  preprocess pthread_clock_compat_h st.
Proof.
  intros H. cbn [preprocess pp_line]. rewrite H, andb_false_r.
  rewrite preprocess_app, header_skipped by reflexivity.
  cbn [preprocess pp_line enter conds macros emitted].
  now destruct st.
Qed.

Lemma skipped_inclusion_spares_the_guard_witness :
  defined "USE_COMPAT" (pp_start []) = false /\
  preprocess (Ifdef "USE_COMPAT" :: pthread_clock_compat_h ++
              Endif :: pthread_clock_compat_h) (pp_start []) =
  preprocess pthread_clock_compat_h (pp_start []).
Proof.
  split; [reflexivity|].
  apply (skipped_inclusion_spares_the_guard "USE_COMPAT" (pp_start [])).
  reflexivity.
Defined.

(** X5: whatever the platform, the language and the macros given on the
    command line, if a unit that is the header alone is accepted then every
    function the header has put in scope is one of the four prototypes, has
    no body, has C linkage and is known to the linker under its plain name;
    no object is defined and no extern "C" block is left open. *)
Theorem accepted_unit_declares_only_the_four
        (P : platform) (lang : language) (extra : list string) (sc : scope) :
  translate P lang extra pthread_clock_compat_h = Some sc ->
  Forall (fun d => In (d_proto d) the_prototypes /\
                   d_has_body d = false /\
                   d_linkage d = C_linkage /\
                   symbol P d = fun_name (d_proto d)) (functions sc) /\
  objects sc = [] /\
  extern_c sc = 0.
Proof.
  rewrite translate_header_cases. intros H.
  assert (Hsc : sc = empty_scope \/ sc = header_scope P).
  { destruct (mem CUDA_SAMPLES_PTHREAD_CLOCK_COMPAT_H_ extra);
      [left; congruence|].
    destruct (match lang with Lang_C => mem cplusplus extra | Lang_Cxx => false end);
      [discriminate|].
    destruct (forallb _ _); [right; congruence | discriminate]. }
  destruct Hsc as [-> | ->]; (split; [|split; reflexivity]).
  - constructor.
  - cbn [header_scope functions the_prototypes map].
    repeat (apply Forall_cons;
            [split; [unfold the_prototypes; cbn [d_proto In]; auto 8
                    | repeat split]|]).
    apply Forall_nil.
Qed.

Lemma accepted_unit_declares_only_the_four_witness :
  translate test_platform Lang_Cxx ["NDEBUG"] pthread_clock_compat_h =
    Some (header_scope test_platform) /\
  Forall (fun d => In (d_proto d) the_prototypes /\
                   d_has_body d = false /\
                   d_linkage d = C_linkage /\
                   symbol test_platform d = fun_name (d_proto d))
         (functions (header_scope test_platform)) /\
  objects (header_scope test_platform) = [] /\
  extern_c (header_scope test_platform) = 0.
Proof.
  split; [reflexivity|].
  apply (accepted_unit_declares_only_the_four test_platform Lang_Cxx ["NDEBUG"]
           (header_scope test_platform)).
  reflexivity.
Defined.

(** X6: with the guard not predefined, a unit that is the header alone
    is rejected, in C and in C++, on every platform on which one of the
    typedef names pthread_cond_t, pthread_mutex_t, pthread_rwlock_t and
    clockid_t is declared by neither pthread.h nor time.h: the header
    declares none of them itself. *)
Theorem missing_typedef_is_rejected
        (P : platform) (lang : language) (extra : list string) (t : ctype) :
  mem CUDA_SAMPLES_PTHREAD_CLOCK_COMPAT_H_ extra = false ->
  In t [Tnamed "pthread_cond_t"; Tnamed "pthread_mutex_t";
        Tnamed "pthread_rwlock_t"; Tnamed "clockid_t"] ->
  has_type t (provides P "pthread.h" ++ provides P "time.h") = false ->
  translate P lang extra pthread_clock_compat_h = None.
Proof.
  intros Hg Ht Hmiss. rewrite translate_header_cases, Hg.
  destruct (match lang with Lang_C => mem cplusplus extra | Lang_Cxx => false end);
    [reflexivity|].
  destruct (forallb _ _) eqn:E; [|reflexivity].
  rewrite forallb_forall in E. rewrite E in Hmiss; [discriminate|].
  unfold posix_pthread_h, posix_time_h. cbn [app In] in Ht |- *. tauto.
Qed.

Lemma missing_typedef_is_rejected_witness :
  translate
    {| world := unit;
       provides := fun h =>
         if String.eqb h "pthread.h"
         then [Tnamed "pthread_cond_t"; Tnamed "pthread_mutex_t";
               Tnamed "pthread_rwlock_t"; Tstruct "timespec"]
         else [];
       mangle := fun_name;
       exports := fun _ => None |}
    Lang_Cxx [] pthread_clock_compat_h = None.
Proof.
  apply (missing_typedef_is_rejected
           {| world := unit;
              provides := fun h =>
                if String.eqb h "pthread.h"
                then [Tnamed "pthread_cond_t"; Tnamed "pthread_mutex_t";
                      Tnamed "pthread_rwlock_t"; Tstruct "timespec"]
                else [];
              mangle := fun_name;
              exports := fun _ => None |}
           Lang_Cxx [] (Tnamed "clockid_t")).
  - reflexivity.
  - simpl. auto.
  - reflexivity.
Defined.

(** X7: a C compilation in which __cplusplus has been defined by hand
    (and the guard has not) is rejected on every platform: the test of the
    macro, not the language, lets the extern "C" wrapper through, and the
    wrapper is not C. *)
Theorem cplusplus_macro_in_C_is_rejected (P : platform) (extra : list string) :
  mem CUDA_SAMPLES_PTHREAD_CLOCK_COMPAT_H_ extra = false ->
  mem cplusplus extra = true ->
  translate P Lang_C extra pthread_clock_compat_h = None.
Proof.
  intros Hg Hc. now rewrite translate_header_cases, Hg, Hc.
Qed.

Lemma cplusplus_macro_in_C_is_rejected_witness :
  translate legacy_platform Lang_C ["NDEBUG"; "__cplusplus"]
            pthread_clock_compat_h = None.
Proof.
  apply (cplusplus_macro_in_C_is_rejected legacy_platform
           ["NDEBUG"; "__cplusplus"]); reflexivity.
Defined.

(** X8: when the guard macro is already defined before the header is read
    (a name clash, or -D on the command line), the unit is accepted on every
    platform and in both languages, but it is empty: the two includes are
    skipped with the rest, and the header brings no type name and no
    declaration into scope. *)
Theorem guard_clash_hides_the_header
        (P : platform) (lang : language) (extra : list string) :
  mem CUDA_SAMPLES_PTHREAD_CLOCK_COMPAT_H_ extra = true ->
  preprocess_unit (predefined lang ++ extra) pthread_clock_compat_h = Some [] /\
  translate P lang extra pthread_clock_compat_h = Some empty_scope.
Proof.
  intros Hg. split.
  - apply preprocess_header_guarded. now apply guard_predefined.
  - now rewrite translate_header_cases, Hg.
Qed.

Lemma guard_clash_hides_the_header_witness :
  preprocess_unit
    (predefined Lang_Cxx ++ ["CUDA_SAMPLES_PTHREAD_CLOCK_COMPAT_H_"])
    pthread_clock_compat_h = Some [] /\
  translate test_platform Lang_Cxx ["CUDA_SAMPLES_PTHREAD_CLOCK_COMPAT_H_"]
            pthread_clock_compat_h = Some empty_scope.
Proof.
  apply (guard_clash_hides_the_header test_platform Lang_Cxx
           ["CUDA_SAMPLES_PTHREAD_CLOCK_COMPAT_H_"]).
  reflexivity.
Defined.



(** ** The header inside extern "C" blocks of the including text *)

Lemma preprocess_braces (l : line) (n : nat) :
  l = Extern_C_open \/ l = Close_brace ->
  forall st,
    live st = true ->
    preprocess (repeat l n) st =
    Some {| macros := macros st;
            conds := conds st;
            emitted := emitted st ++ repeat l n |}.
Proof.
  intros Hl. induction n as [|n IH]; intros st Hst; cbn [repeat preprocess].
  - rewrite app_nil_r. now destruct st.
  - assert (E : pp_line l st = Some (emit l st))
      by (destruct Hl as [-> | ->]; cbn [pp_line]; now rewrite Hst).
    rewrite E, IH by exact Hst.
    unfold emit. cbn [macros conds emitted].
    now rewrite <- app_assoc.
Qed.

Lemma elaborate_opens (P : platform) (n : nat) (rest : list line) :
  forall sc,
    elaborate P Lang_Cxx (repeat Extern_C_open n ++ rest) sc =
    elaborate P Lang_Cxx rest
      {| types := types sc;
         extern_c := n + extern_c sc;
         functions := functions sc;
         objects := objects sc |}.
Proof.
  induction n as [|n IH]; intros sc; cbn [repeat app elaborate elab_line].
  - now destruct sc.
  - rewrite IH. cbn [types extern_c functions objects].
    now rewrite Nat.add_succ_r.
Qed.

Lemma elaborate_closes (P : platform) (lang : language) (n : nat) :
  forall sc d,
    extern_c sc = n + d ->
    elaborate P lang (repeat Close_brace n) sc =
    Some {| types := types sc;
            extern_c := d;
            functions := functions sc;
            objects := objects sc |}.
Proof.
  induction n as [|n IH]; intros sc d H; cbn [repeat elaborate elab_line].
  - cbn in H. rewrite <- H. now destruct sc.
  - rewrite H. cbn [Nat.add]. now rewrite (IH _ d).
Qed.

(** X4: on a platform whose two headers declare the POSIX names, and with
    the guard not predefined, a C++ unit that reads the header inside n
    nested  extern "C" {  ...  }  blocks of its own (n may be 0) is
    accepted and ends in the same scope as the header alone: the four
    prototypes with C linkage, and every block closed again. *)
Theorem header_nests_in_extern_C
        (P : platform) (extra : list string) (n : nat) :
  conforms P = true ->
  mem CUDA_SAMPLES_PTHREAD_CLOCK_COMPAT_H_ extra = false ->
  translate P Lang_Cxx extra
    (repeat Extern_C_open n ++ pthread_clock_compat_h ++ repeat Close_brace n) =
  Some (header_scope P).
Proof.
  intros HP Hg.
  assert (Hg' := guard_not_predefined Lang_Cxx extra Hg).
  assert (Hc : mem cplusplus (predefined Lang_Cxx ++ extra) = true)
    by (rewrite cplusplus_predefined; [reflexivity | discriminate]).
  unfold translate, preprocess_unit.
  rewrite preprocess_app, (preprocess_braces Extern_C_open n) by auto.
  rewrite preprocess_app, header_read by (reflexivity || exact Hg').
  rewrite (preprocess_braces Close_brace n) by auto.
  unfold first_pass, defined, pp_start. cbn [macros conds emitted app].
  rewrite Hc. rewrite <- !app_assoc.
  rewrite elaborate_opens.
  pose proof (elaborate_header_text P Lang_Cxx
                {| types := types empty_scope;
                   extern_c := n + extern_c empty_scope;
                   functions := functions empty_scope;
                   objects := objects empty_scope |}) as E.
  cbn [types extern_c functions objects empty_scope] in E |- *.
  rewrite (conforms_five_names P [] HP) in E.
  cbv iota in E.
  match goal with
  | |- context [elaborate P Lang_Cxx ?l _] =>
      replace l with
        (([Include "pthread.h"; Include "time.h"] ++
          [Extern_C_open] ++ map Fun_decl the_prototypes ++ [Close_brace]) ++
         repeat Close_brace n)
        by (cbn [app map the_prototypes]; reflexivity)
  end.
  rewrite elaborate_app, E.
  rewrite (elaborate_closes P Lang_Cxx n _ 0) by reflexivity.
  reflexivity.
Qed.

Lemma header_nests_in_extern_C_witness :
  translate test_platform Lang_Cxx ["NDEBUG"]
    (repeat Extern_C_open 2 ++ pthread_clock_compat_h ++ repeat Close_brace 2) =
  Some (header_scope test_platform).
Proof.
  apply (header_nests_in_extern_C test_platform ["NDEBUG"] 2); reflexivity.
Defined.

(** A block of the including text that is left open is an error. *)
Example unclosed_block_is_rejected :
  translate test_platform Lang_Cxx []
    (repeat Extern_C_open 2 ++ pthread_clock_compat_h ++ repeat Close_brace 1) =
  None.
Proof. reflexivity. Qed.
